(** * Connection resolution and client factories of [src/blobs.ts]

    A shallow embedding of the resolver ([getAzureStorageConnectionNrFromEnvVar],
    [defaultGetBlobStorageClientOptions], [defaultGetContainerClientOptions])
    and of the two factory builders, together with the JavaScript primitives
    they are written with ([trim], [split], [parseInt], template literals,
    [typeof]).  Strings are sequences of UTF-16 code units, the process
    environment is an ordered association list, exceptions are an error
    monad. *)

From Stdlib Require Import List NArith Bool Lia String Ascii.
From Stdlib Require Import DecimalFacts DecimalPos DecimalN.
Import ListNotations.

Local Open Scope N_scope.

(** ** JavaScript strings *)

Module JS.

(** A string value is a finite sequence of 16-bit code units. *)
Definition char := N.
Definition jsstring := list char.

(** Source literals are written as Rocq strings. *)
Definition js (s : string) : jsstring :=
  List.map N_of_ascii (list_ascii_of_string s).

Definition char_eqb (a b : char) : bool := N.eqb a b.

Fixpoint str_eqb (a b : jsstring) : bool :=
  match a, b with
  | [], [] => true
  | x :: a', y :: b' => char_eqb x y && str_eqb a' b'
  | _, _ => false
  end.

(** [WhiteSpace] and [LineTerminator] code points of ECMAScript, the set
    removed by [String.prototype.trim]. *)
Definition isWhiteSpace (c : char) : bool :=
  (c =? 0x09) || (c =? 0x0A) || (c =? 0x0B) || (c =? 0x0C) || (c =? 0x0D)
  || (c =? 0x20) || (c =? 0xA0) || (c =? 0x1680)
  || ((0x2000 <=? c) && (c <=? 0x200A))
  || (c =? 0x2028) || (c =? 0x2029) || (c =? 0x202F) || (c =? 0x205F)
  || (c =? 0x3000) || (c =? 0xFEFF).

Fixpoint drop_while (p : char -> bool) (s : jsstring) : jsstring :=
  match s with
  | [] => []
  | c :: s' => if p c then drop_while p s' else s
  end.

Definition trimStart (s : jsstring) : jsstring := drop_while isWhiteSpace s.
Definition trimEnd (s : jsstring) : jsstring :=
  rev (drop_while isWhiteSpace (rev s)).

(** [s.trim()] *)
Definition trim (s : jsstring) : jsstring := trimEnd (trimStart s).

(** [s.split(sep)] for a separator of one code unit: the pieces between
    the occurrences of [sep]; a string without [sep] is its only piece. *)
Fixpoint split (sep : char) (s : jsstring) : list jsstring :=
  match s with
  | [] => [ [] ]
  | c :: s' =>
      if char_eqb c sep then [] :: split sep s'
      else match split sep s' with
           | piece :: rest => (c :: piece) :: rest
           | [] => [ [c] ]
           end
  end.

(** [s.startsWith(p)], returning what follows the prefix. *)
Fixpoint strip_prefix (p s : jsstring) : option jsstring :=
  match p, s with
  | [], _ => Some s
  | x :: p', y :: s' => if char_eqb x y then strip_prefix p' s' else None
  | _ :: _, [] => None
  end.

(** [s.includes(t)] *)
Fixpoint includes (s t : jsstring) : bool :=
  match strip_prefix t s with
  | Some _ => true
  | None => match s with
            | [] => false
            | _ :: s' => includes s' t
            end
  end.

(** The class [\d]: the ten ASCII digits. *)
Definition isDigit (c : char) : bool := (48 <=? c) && (c <=? 57).

End JS.
Import JS.

(** ** JavaScript numbers, as far as [parseInt] produces them *)

Module Number.

(** [parseInt] yields NaN, an infinity, or a double whose value is an
    integer; [Num neg m] is the double of sign [neg] and magnitude [m]
    (so [Num true 0] is the negative zero). *)
Inductive number : Type :=
  | NaN
  | Inf (negative : bool)
  | Num (negative : bool) (magnitude : N).

Definition isNaN (x : number) : bool :=
  match x with NaN => true | _ => false end.

Definition safe_bound : N := 2 ^ 53.

(** The magnitude of the double nearest to the integer [m] (IEEE 754
    binary64, round to nearest, ties to even); [None] is an overflow to
    infinity.  Integers up to [2^53] are doubles themselves. *)
Definition round_binary64 (m : N) : option N :=
  if m <=? safe_bound then Some m
  else
    let e := N.log2 m - 52 in
    let q := N.shiftr m e in
    let r := N.land m (N.ones e) in
    let half := 2 ^ (e - 1) in
    let q' := if (half <? r) || ((r =? half) && N.odd q) then q + 1 else q in
    let v := N.shiftl q' e in
    if 2 ^ 1024 <=? v then None else Some v.

(** The Number value for a mathematical integer of the given sign. *)
Definition to_number (negative : bool) (m : N) : number :=
  match round_binary64 m with
  | Some v => Num negative v
  | None => Inf negative
  end.

(** Value of a code unit as a digit: [0-9], [a-z], [A-Z]. *)
Definition digit_value (c : char) : option N :=
  if isDigit c then Some (c - 48)
  else if (97 <=? c) && (c <=? 122) then Some (c - 87)
  else if (65 <=? c) && (c <=? 90) then Some (c - 55)
  else None.

(** The longest prefix of [s] made of radix-[R] digits, as digit values. *)
Fixpoint radix_prefix (R : N) (s : jsstring) : list N :=
  match s with
  | [] => []
  | c :: s' =>
      match digit_value c with
      | Some d => if d <? R then d :: radix_prefix R s' else []
      | None => []
      end
  end.

(** The integer written by a sequence of digit values in radix [R]. *)
Definition radix_value (R : N) (ds : list N) : N :=
  fold_left (fun acc d => acc * R + d) ds 0.

(** [ToString] of the argument of [parseInt]: the call site passes a
    string or [undefined]. *)
Definition ToString (v : option jsstring) : jsstring :=
  match v with
  | Some s => s
  | None => js "undefined"
  end.

(** What follows a leading [0x] or [0X], if there is one. *)
Definition hex_prefixed (s : jsstring) : option jsstring :=
  match strip_prefix (js "0x") s with
  | Some rest => Some rest
  | None => strip_prefix (js "0X") s
  end.

(** [parseInt(v)] without a radix argument: leading white space is
    skipped, then a sign, then a hexadecimal prefix, which selects radix
    16 instead of 10; the digits that follow are read as far as they go,
    and none at all gives NaN. *)
Definition parseInt (v : option jsstring) : number :=
  let S0 := trimStart (ToString v) in
  let negative := match S0 with c :: _ => c =? 45 | [] => false end in
  let S1 := match S0 with
            | c :: rest => if (c =? 43) || (c =? 45) then rest else S0
            | [] => S0
            end in
  let R := match hex_prefixed S1 with Some _ => 16 | None => 10 end in
  let S2 := match hex_prefixed S1 with Some rest => rest | None => S1 end in
  match radix_prefix R S2 with
  | [] => NaN
  | Z => to_number negative (radix_value R Z)
  end.

(** Canonical decimal numeral of a natural number. *)
Fixpoint uint_chars (d : Decimal.uint) : jsstring :=
  match d with
  | Decimal.Nil => []
  | Decimal.D0 d => 48 :: uint_chars d
  | Decimal.D1 d => 49 :: uint_chars d
  | Decimal.D2 d => 50 :: uint_chars d
  | Decimal.D3 d => 51 :: uint_chars d
  | Decimal.D4 d => 52 :: uint_chars d
  | Decimal.D5 d => 53 :: uint_chars d
  | Decimal.D6 d => 54 :: uint_chars d
  | Decimal.D7 d => 55 :: uint_chars d
  | Decimal.D8 d => 56 :: uint_chars d
  | Decimal.D9 d => 57 :: uint_chars d
  end.

Definition decimal (n : N) : jsstring := uint_chars (N.to_uint n).

(** *** [Number::toString]

    For a double of magnitude [m] the numeral is built from integers
    [n], [k], [s] with [k] as small as possible, [10^(k-1) <= s < 10^k]
    and [s * 10^(n-k)] rounding to [m]; among several [s] the closest to
    [m] wins. *)

Definition rounds_to (v m : N) : bool :=
  match round_binary64 v with
  | Some w => w =? m
  | None => false
  end.

Definition candidates (m n k : N) : list (N * N) :=
  if n <? k then []
  else
    let p := 10 ^ (n - k) in
    List.map (fun s => (n, s))
      (filter (fun s => (10 ^ (k - 1) <=? s) && (s <? 10 ^ k)
                        && rounds_to (s * p) m)
              [m / p; m / p + 1]).

Definition distance (a b : N) : N := if a <=? b then b - a else a - b.

Definition closest (m k : N) (cs : list (N * N)) : option (N * N) :=
  let err c := distance (snd c * 10 ^ (fst c - k)) m in
  fold_left
    (fun best c =>
       match best with
       | None => Some c
       | Some b =>
           if (err c <? err b) || ((err c =? err b) && N.even (snd c))
           then Some c else best
       end)
    cs None.

Fixpoint shortest (fuel : nat) (m D k : N) : option (N * N * N) :=
  match fuel with
  | O => None
  | S fuel' =>
      match closest m k (candidates m D k ++ candidates m (D + 1) k) with
      | Some (n, s) => Some (n, k, s)
      | None => shortest fuel' m D (k + 1)
      end
  end.

(** The numeral for [n], [k], [s]: plain digits up to [10^21], exponent
    notation from there on. *)
Definition shortest_numeral (m : N) : jsstring :=
  let D := N.of_nat (List.length (decimal m)) in
  match shortest 17 m D 1 with
  | Some (n, k, s) =>
      if n <=? 21 then decimal s ++ repeat 48 (N.to_nat (n - k))
      else
        match decimal s with
        | d :: ds =>
            (d :: match ds with [] => [] | _ => 46 :: ds end)
              ++ js "e+" ++ decimal (n - 1)
        | [] => []
        end
  | None => decimal m
  end.

(** Up to [2^53] only the integer itself rounds to [m], so the numeral
    is the decimal numeral of [m]. *)
Definition magnitude_to_string (m : N) : jsstring :=
  if m <=? safe_bound then decimal m else shortest_numeral m.

(** The text a template literal substitutes for [${x}]. *)
Definition number_to_string (x : number) : jsstring :=
  match x with
  | NaN => js "NaN"
  | Inf false => js "Infinity"
  | Inf true => js "-Infinity"
  | Num _ 0 => js "0"
  | Num false m => magnitude_to_string m
  | Num true m => 45 :: magnitude_to_string m
  end.

End Number.
Import Number.

(** ** Exceptions *)

(** [new Error(message)], [new TypeError(message)], and the TypeError the
    engine itself raises (calling a value that is no function,
    destructuring [null]), whose text depends on the engine. *)
Inductive exn : Type :=
  | Error (message : jsstring)
  | TypeError (message : jsstring)
  | EngineTypeError.

Inductive result (A : Type) : Type :=
  | Return (a : A)
  | Throw (e : exn).

Arguments Return {A} a.
Arguments Throw {A} e.

Definition bind {A B : Type} (c : result A) (k : A -> result B) : result B :=
  match c with
  | Return a => k a
  | Throw e => Throw e
  end.

Declare Scope js_scope.
Delimit Scope js_scope with js.
Notation "x <- c ;; k" := (bind c (fun x => k))
  (at level 61, c at next level, right associativity) : js_scope.
Local Open Scope js_scope.

(** ** The process environment *)

(** [process.env]: the variables in enumeration order. *)
Definition Env : Type := list (jsstring * jsstring).

(** [Object.keys(process.env)] *)
Definition keys (env : Env) : list jsstring := List.map fst env.

(** [process.env[k]]; [None] is [undefined]. *)
Fixpoint get (env : Env) (k : jsstring) : option jsstring :=
  match env with
  | [] => None
  | (k', v) :: env' => if str_eqb k' k then Some v else get env' k
  end.

(** ** The resolver of [blobs.ts] *)

Record IBlobStorageClientOptions : Type := { url : jsstring }.

(** [IContainerClientOptions extends IBlobStorageClientOptions] *)
Record IContainerClientOptions : Type :=
  { storage :> IBlobStorageClientOptions;
    container : jsstring }.

(** [v?.trim()] *)
Definition opt_trim (v : option jsstring) : option jsstring :=
  option_map trim v.

(** [v?.length] as a condition: the string when it is defined and not
    empty. *)
Definition with_length (v : option jsstring) : option jsstring :=
  match v with
  | Some (c :: s) => Some (c :: s)
  | _ => None
  end.

(** [v === name] for a string [name] *)
Definition strict_eq (v : option jsstring) (name : jsstring) : bool :=
  match v with
  | Some s => str_eqb s name
  | None => false
  end.

(** [xs[0]] on an array whose elements may be [undefined] *)
Definition element0 (xs : list (option jsstring)) : option jsstring :=
  match xs with
  | x :: _ => x
  | [] => None
  end.

Definition CONNECTION_PREFIX : jsstring := js "AZURE_STORAGE_CONNECTION_".

(** [/^(AZURE_STORAGE_CONNECTION_)(\d+)$/.test(k)]; the expression has no
    flags, so [$] is the end of the string and [test] keeps no state. *)
Definition r_test (k : jsstring) : bool :=
  match strip_prefix CONNECTION_PREFIX k with
  | Some ds => match ds with [] => false | _ => forallb isDigit ds end
  | None => false
  end.

Definition underscore : char := 95.

Definition not_found_or_defined (name : jsstring) : exn :=
  Error (js "No azure storage connection " ++ name ++ js " found or defined").

Definition getAzureStorageConnectionNrFromEnvVar
    (env : Env) (name : jsstring) : result number :=
  let connectionNr :=
    parseInt
      (element0
         (List.map (fun k => nth_error (split underscore k) 3)
            (filter (fun k => strict_eq (opt_trim (get env k)) name)
               (filter r_test (keys env))))) in
  if isNaN connectionNr then Throw (not_found_or_defined name)
  else Return connectionNr.

(** [`AZURE_STORAGE_CONNECTION_${connectionNr}_URL`] and its sibling *)
Definition url_key (connectionNr : number) : jsstring :=
  CONNECTION_PREFIX ++ number_to_string connectionNr ++ js "_URL".

Definition container_key (connectionNr : number) : jsstring :=
  CONNECTION_PREFIX ++ number_to_string connectionNr ++ js "_CONTAINER".

Definition connection_not_found (name : jsstring) : exn :=
  Error (js "Azure storage connection " ++ name ++ js " not found").

Definition no_container_defined : exn := Error (js "No container defined").

Definition defaultGetBlobStorageClientOptions
    (env : Env) (name : jsstring) : result IBlobStorageClientOptions :=
  connectionNr <- getAzureStorageConnectionNrFromEnvVar env name ;;
  let url := opt_trim (get env (url_key connectionNr)) in
  match with_length url with
  | None => Throw (connection_not_found name)
  | Some url => Return {| url := url |}
  end.

Definition defaultGetContainerClientOptions
    (env : Env) (name : jsstring) (container : option jsstring)
    : result IContainerClientOptions :=
  connectionNr <- getAzureStorageConnectionNrFromEnvVar env name ;;
  storageOpts <- defaultGetBlobStorageClientOptions env name ;;
  let container := opt_trim container in
  let container :=
    match with_length container with
    | None => opt_trim (get env (container_key connectionNr))
    | Some _ => container
    end in
  match with_length container with
  | None => Throw no_container_defined
  | Some container =>
      Return {| storage := storageOpts; container := container |}
  end.

(** ** Values passed to the factory builders *)

(** Primitive values. *)
Inductive value : Type :=
  | VUndefined
  | VNull
  | VBoolean (b : bool)
  | VNumber (x : number)
  | VString (s : jsstring).

(** What a caller can hand over as [optionsOrFunc], and what a call of
    such a function can evaluate to: a primitive, an options record of
    type [O], or a function of arguments [A] that may read the
    environment and may throw. *)
#[warnings="-register-all"] Inductive jsval (A O : Type) : Type :=
  | Prim (v : value)
  | Obj (o : O)
  | Fn (f : Env -> A -> result (jsval A O)).

Arguments Prim {A O} v.
Arguments Obj {A O} o.
Arguments Fn {A O} f.

Definition typeof_value (v : value) : jsstring :=
  match v with
  | VUndefined => js "undefined"
  | VNull => js "object"
  | VBoolean _ => js "boolean"
  | VNumber _ => js "number"
  | VString _ => js "string"
  end.

Definition typeof {A O : Type} (x : jsval A O) : jsstring :=
  match x with
  | Prim v => typeof_value v
  | Obj _ => js "object"
  | Fn _ => js "function"
  end.

(** [f(a)]: calling anything but a function is a TypeError. *)
Definition call {A O : Type} (f : jsval A O) (env : Env) (a : A)
    : result (jsval A O) :=
  match f with
  | Fn g => g env a
  | _ => Throw EngineTypeError
  end.

(** Reading one property in a destructuring pattern [{ p } = x]:
    [undefined] and [null] cannot be destructured; on other primitives
    and on functions the options properties are absent. *)
Definition property {A O : Type} (field : O -> jsstring) (x : jsval A O)
    : result value :=
  match x with
  | Obj o => Return (VString (field o))
  | Prim VUndefined | Prim VNull => Throw EngineTypeError
  | Prim _ | Fn _ => Return VUndefined
  end.

(** The two function types of the source; the environment they read is
    an explicit argument. *)
Definition GetBlobStorageClientOptions : Type :=
  Env -> jsstring -> result IBlobStorageClientOptions.

Definition GetContainerClientOptions : Type :=
  Env -> jsstring -> option jsstring -> result IContainerClientOptions.

(** A typed options function as a function value. *)
Definition as_function {A O : Type} (f : Env -> A -> result O) : jsval A O :=
  Fn (fun env a => o <- f env a ;; Return (Obj o)).

(** A missing or [undefined] argument takes the parameter's default. *)
Definition or_default {A O : Type} (x default : jsval A O) : jsval A O :=
  match x with
  | Prim VUndefined => default
  | _ => x
  end.

Definition must_be_function_or_object : exn :=
  TypeError (js "optionsOrFunc must be a function or object").

(** ** The factory builders *)

Section Factories.

(** The storage SDK is an opaque collaborator: two client types, the
    static [BlobServiceClient.fromConnectionString] and the method
    [getContainerClient], both of which receive whatever value the
    destructuring produced. *)
Variables BlobServiceClient ContainerClient : Type.
Variable fromConnectionString : value -> result BlobServiceClient.
Variable sdk_getContainerClient :
  BlobServiceClient -> value -> result ContainerClient.

Definition BlobServiceClientProvider : Type :=
  Env -> jsstring -> result BlobServiceClient.

Definition ContainerClientProvider : Type :=
  Env -> jsstring -> option jsstring -> result ContainerClient.

Definition BlobSource : Type := jsval jsstring IBlobStorageClientOptions.

Definition ContainerSource : Type :=
  jsval (jsstring * option jsstring) IContainerClientOptions.

Definition createGetBlobServiceClientFactory (optionsOrFunc : BlobSource)
    : result BlobServiceClientProvider :=
  let optionsOrFunc :=
    or_default optionsOrFunc (as_function defaultGetBlobStorageClientOptions) in
  let getOptions : BlobSource :=
    if str_eqb (typeof optionsOrFunc) (js "function") then optionsOrFunc
    else Fn (fun _ _ => Return optionsOrFunc) in
  if negb (str_eqb (typeof getOptions) (js "function"))
  then Throw must_be_function_or_object
  else
    Return (fun env name =>
              options <- call getOptions env name ;;
              url <- property url options ;;
              fromConnectionString url).

Definition createGetContainerClientFactory (optionsOrFunc : ContainerSource)
    : result ContainerClientProvider :=
  let optionsOrFunc :=
    or_default optionsOrFunc
      (as_function (fun env a =>
                      defaultGetContainerClientOptions env (fst a) (snd a))) in
  let getOptions : ContainerSource :=
    if str_eqb (typeof optionsOrFunc) (js "function") then optionsOrFunc
    else Fn (fun _ _ => Return optionsOrFunc) in
  if negb (str_eqb (typeof getOptions) (js "function"))
  then Throw must_be_function_or_object
  else
    Return (fun env name customerContainer =>
              options <- call getOptions env (name, customerContainer) ;;
              container <- property container options ;;
              url <- property (fun o : IContainerClientOptions => url o) options ;;
              client <- fromConnectionString url ;;
              sdk_getContainerClient client container).

(** The two exported singletons. *)
Definition getBlobServiceClient : result BlobServiceClientProvider :=
  createGetBlobServiceClientFactory
    (as_function defaultGetBlobStorageClientOptions).

Definition getContainerClient : result ContainerClientProvider :=
  createGetContainerClientFactory
    (as_function (fun env a =>
                    defaultGetContainerClientOptions env (fst a) (snd a))).

End Factories.

(** ** Vocabulary of the specification *)

(** The integer written by a string of decimal digits. *)
Definition digits_value (ds : jsstring) : N :=
  fold_left (fun acc c => acc * 10 + (c - 48)) ds 0.

(** The digits segment of a declaration key
    [AZURE_STORAGE_CONNECTION_<digits>]; no other key has one. *)
Definition digits_segment (k : jsstring) : option jsstring :=
  match strip_prefix CONNECTION_PREFIX k with
  | Some (c :: ds) => if forallb isDigit (c :: ds) then Some (c :: ds) else None
  | _ => None
  end.

(** A key declares [name] when it is a declaration key and its trimmed
    value is [name]. *)
Definition declares (env : Env) (name k : jsstring) : bool :=
  match digits_segment k with
  | Some _ => strict_eq (opt_trim (get env k)) name
  | None => false
  end.

(** The first key, in enumeration order, that declares [name]. *)
Definition first_declaration (env : Env) (name : jsstring) : option jsstring :=
  find (declares env name) (keys env).

(** The declaration key of an index, and the keys of its group. *)
Definition declaration_key (index : N) : jsstring :=
  CONNECTION_PREFIX ++ decimal index.

Definition url_key_of (index : N) : jsstring :=
  CONNECTION_PREFIX ++ decimal index ++ js "_URL".

Definition container_key_of (index : N) : jsstring :=
  CONNECTION_PREFIX ++ decimal index ++ js "_CONTAINER".


(** ** Environments used as examples *)

Definition env_acme : Env :=
  [ (js "AZURE_STORAGE_CONNECTION_1", js "acme");
    (js "AZURE_STORAGE_CONNECTION_1_URL", js "https://x/");
    (js "AZURE_STORAGE_CONNECTION_1_CONTAINER", js "logs") ].



(** A url written with white space around it. *)
Definition env_padded_url : Env :=
  [ (js "AZURE_STORAGE_CONNECTION_1", js "acme");
    (js "AZURE_STORAGE_CONNECTION_1_URL", js " https://x/ ") ].

(** A declaration with leading zeros. *)
Definition env_007 : Env :=
  [ (js "AZURE_STORAGE_CONNECTION_007", js "acme");
    (js "AZURE_STORAGE_CONNECTION_007_URL", js "https://wrong/");
    (js "AZURE_STORAGE_CONNECTION_7_URL", js "https://x/");
    (js "AZURE_STORAGE_CONNECTION_7_CONTAINER", js "logs") ].

(** A declaration whose digits, after a leading zero, write [2^53 + 1]. *)
Definition env_beyond_safe : Env :=
  [ (js "AZURE_STORAGE_CONNECTION_09007199254740993", js "acme");
    (js "AZURE_STORAGE_CONNECTION_9007199254740993_URL", js "https://x/");
    (js "AZURE_STORAGE_CONNECTION_9007199254740992_URL", js "https://y/") ].

(** Two declarations of one name: index 2 is enumerated first. *)
Definition env_twice : Env :=
  [ (js "AZURE_STORAGE_CONNECTION_2", js "acme");
    (js "AZURE_STORAGE_CONNECTION_1", js "acme");
    (js "AZURE_STORAGE_CONNECTION_1_URL", js "https://one/");
    (js "AZURE_STORAGE_CONNECTION_2_URL", js "https://two/") ].

(** [env_acme] with another default container. *)
Definition env_acme_elsewhere : Env :=
  [ (js "AZURE_STORAGE_CONNECTION_1", js "acme");
    (js "AZURE_STORAGE_CONNECTION_1_URL", js "https://x/");
    (js "AZURE_STORAGE_CONNECTION_1_CONTAINER", js "elsewhere") ].

(** A declaration of 309 digits, more than any double holds. *)
Definition env_huge : Env :=
  [ (CONNECTION_PREFIX ++ repeat 57 309, js "acme");
    (js "AZURE_STORAGE_CONNECTION_Infinity_URL", js "https://x/") ].

(** * Properties *)

(** ** The primitives on known inputs *)

Example trim_pads : trim (js "  acme	 ") = js "acme".
Proof. reflexivity. Qed.

Example trim_keeps_inner : trim (js " a b ") = js "a b".
Proof. reflexivity. Qed.

Example split_key :
  split 95 (js "AZURE_STORAGE_CONNECTION_12") =
  [js "AZURE"; js "STORAGE"; js "CONNECTION"; js "12"].
Proof. reflexivity. Qed.

Example split_empty : split 95 (js "") = [js ""].
Proof. reflexivity. Qed.

Example parseInt_7 : parseInt (Some (js "007")) = Num false 7.
Proof. reflexivity. Qed.

Example parseInt_undefined : parseInt None = NaN.
Proof. reflexivity. Qed.

Example parseInt_hex : parseInt (Some (js " -0x1F;")) = Num true 31.
Proof. reflexivity. Qed.

Example parseInt_tie_to_even :
  parseInt (Some (js "9007199254740993")) = Num false 9007199254740992.
Proof. vm_compute. reflexivity. Qed.

Example parseInt_round_up :
  parseInt (Some (js "9007199254740995")) = Num false 9007199254740996.
Proof. vm_compute. reflexivity. Qed.

Example shortest_numeral_small :
  List.map shortest_numeral [7; 40; 1200; 2 ^ 53 - 1; 2 ^ 53] =
  List.map decimal [7; 40; 1200; 2 ^ 53 - 1; 2 ^ 53].
Proof. vm_compute. reflexivity. Qed.

Example to_string_2_60 :
  number_to_string (to_number false (2 ^ 60)) = js "1152921504606847000".
Proof. vm_compute. reflexivity. Qed.

Example to_string_2_64 :
  number_to_string (to_number false (2 ^ 64)) = js "18446744073709552000".
Proof. vm_compute. reflexivity. Qed.

Example to_string_1e21 :
  number_to_string (to_number false (10 ^ 21)) = js "1e+21".
Proof. vm_compute. reflexivity. Qed.

Example to_string_2_70 :
  number_to_string (to_number false (2 ^ 70)) = js "1.1805916207174113e+21".
Proof. vm_compute. reflexivity. Qed.

Example to_string_1e23 :
  number_to_string (to_number false (10 ^ 23)) = js "1e+23".
Proof. vm_compute. reflexivity. Qed.

Example to_string_long :
  number_to_string (parseInt (Some (js "123456789012345678901"))) =
  js "123456789012345680000".
Proof. vm_compute. reflexivity. Qed.

Example to_string_max :
  number_to_string (to_number false (2 ^ 1024 - 2 ^ 971)) =
  js "1.7976931348623157e+308".
Proof. vm_compute. reflexivity. Qed.

Example to_string_overflow :
  number_to_string (to_number false (2 ^ 1024 - 2 ^ 970)) = js "Infinity".
Proof. vm_compute. reflexivity. Qed.

(** ** Facts about strings *)

Lemma str_eqb_eq (a b : jsstring) : str_eqb a b = true <-> a = b.
Proof.
  revert b; induction a as [|x a IH]; intros [|y b]; simpl;
    try (split; [discriminate | discriminate]); try tauto.
  unfold char_eqb. rewrite andb_true_iff, N.eqb_eq, IH.
  split; [intros [-> ->]; reflexivity | intros H; inversion H; auto].
Qed.

Lemma str_eqb_refl (a : jsstring) : str_eqb a a = true.
Proof. apply str_eqb_eq; reflexivity. Qed.

Lemma strict_eq_true (v : option jsstring) (name : jsstring) :
  strict_eq v name = true <-> v = Some name.
Proof.
  destruct v as [s|]; simpl.
  - rewrite str_eqb_eq. split; [intros ->; reflexivity | intros H; inversion H; auto].
  - split; discriminate.
Qed.

Lemma strip_prefix_app (p s : jsstring) : strip_prefix p (p ++ s) = Some s.
Proof.
  induction p as [|x p IH]; simpl.
  - destruct s; reflexivity.
  - unfold char_eqb. rewrite N.eqb_refl. exact IH.
Qed.

Lemma strip_prefix_Some (p k s : jsstring) :
  strip_prefix p k = Some s -> k = p ++ s.
Proof.
  revert k; induction p as [|x p IH]; intros k H.
  - destruct k; simpl in H; inversion H; reflexivity.
  - destruct k as [|y k]; simpl in H; [discriminate|].
    unfold char_eqb in H. destruct (N.eqb_spec x y) as [->|]; [|discriminate].
    simpl. f_equal. apply IH, H.
Qed.

Lemma includes_unfold (s t : jsstring) :
  includes s t =
  match strip_prefix t s with
  | Some _ => true
  | None => match s with [] => false | _ :: s' => includes s' t end
  end.
Proof. destruct s; reflexivity. Qed.

Lemma includes_app (a t b : jsstring) : includes (a ++ t ++ b) t = true.
Proof.
  induction a as [|x a IH]; rewrite includes_unfold.
  - simpl. rewrite strip_prefix_app. reflexivity.
  - change ((x :: a) ++ t ++ b) with (x :: (a ++ t ++ b)). cbv iota.
    rewrite IH. destruct (strip_prefix t _); reflexivity.
Qed.

(** ** Decimal numerals *)

Lemma isDigit_range (c : char) : isDigit c = true <-> 48 <= c <= 57.
Proof. unfold isDigit. rewrite andb_true_iff, !N.leb_le. tauto. Qed.

Lemma digit_not_space (c : char) : isDigit c = true -> isWhiteSpace c = false.
Proof.
  rewrite isDigit_range. intros H. unfold isWhiteSpace.
  repeat match goal with
         | |- context [?a =? ?b] =>
             let E := fresh in destruct (N.eqb_spec a b) as [E|E]; [lia|]
         end.
  simpl. destruct (N.leb_spec 0x2000 c); [lia|reflexivity].
Qed.

Lemma digit_value_digit (c : char) :
  isDigit c = true -> digit_value c = Some (c - 48).
Proof. unfold digit_value. intros ->. reflexivity. Qed.

Lemma radix_prefix_digits (ds : jsstring) :
  forallb isDigit ds = true ->
  radix_prefix 10 ds = List.map (fun c => c - 48) ds.
Proof.
  induction ds as [|c ds IH]; simpl; [reflexivity|].
  rewrite andb_true_iff. intros [Hc Hds].
  rewrite (digit_value_digit c Hc).
  apply isDigit_range in Hc.
  destruct (N.ltb_spec (c - 48) 10); [|lia].
  rewrite IH by assumption. reflexivity.
Qed.

Lemma radix_value_digits (ds : jsstring) :
  radix_value 10 (List.map (fun c => c - 48) ds) = digits_value ds.
Proof.
  unfold radix_value, digits_value. generalize 0.
  induction ds as [|c ds IH]; intros acc; simpl; [reflexivity|apply IH].
Qed.

Lemma hex_prefixed_digits (ds : jsstring) :
  forallb isDigit ds = true -> hex_prefixed ds = None.
Proof.
  intros H. unfold hex_prefixed.
  change (js "0x") with [48; 120]. change (js "0X") with [48; 88].
  destruct ds as [|c [|x rest]]; cbn [strip_prefix].
  - reflexivity.
  - destruct (char_eqb 48 c); reflexivity.
  - simpl in H. apply andb_true_iff in H. destruct H as [_ H].
    apply andb_true_iff in H. destruct H as [Hx _].
    apply isDigit_range in Hx. unfold char_eqb.
    destruct (N.eqb_spec 120 x); [lia|]. destruct (N.eqb_spec 88 x); [lia|].
    destruct (48 =? c); reflexivity.
Qed.

(** On a non-empty string of digits [parseInt] finds no white space, no
    sign and no hexadecimal prefix, and reads every digit. *)
Lemma parseInt_digits (c : char) (ds : jsstring) :
  forallb isDigit (c :: ds) = true ->
  parseInt (Some (c :: ds)) = to_number false (digits_value (c :: ds)).
Proof.
  intros H. pose proof H as H0. simpl in H0. apply andb_true_iff in H0.
  destruct H0 as [Hc Hds].
  pose proof (proj1 (isDigit_range c) Hc) as Rc.
  unfold parseInt, ToString, trimStart. simpl drop_while.
  rewrite (digit_not_space c Hc).
  destruct (N.eqb_spec c 45); [lia|].
  destruct (N.eqb_spec c 43); [lia|]. simpl orb. cbv iota.
  rewrite (hex_prefixed_digits (c :: ds) H).
  rewrite (radix_prefix_digits (c :: ds) H).
  rewrite <- radix_value_digits. reflexivity.
Qed.

Lemma uint_chars_digits (d : Decimal.uint) :
  forallb isDigit (uint_chars d) = true.
Proof. induction d; simpl; auto. Qed.

Lemma digits_value_app (a b : jsstring) :
  digits_value (a ++ b) =
  fold_left (fun acc c => acc * 10 + (c - 48)) b (digits_value a).
Proof. unfold digits_value. apply fold_left_app. Qed.

Lemma uint_chars_acc (d : Decimal.uint) (acc : positive) :
  fold_left (fun a c => a * 10 + (c - 48)) (uint_chars d) (N.pos acc) =
  N.pos (Pos.of_uint_acc d acc).
Proof.
  revert acc; induction d; intros acc;
    cbn [uint_chars fold_left Pos.of_uint_acc]; [reflexivity| ..];
    rewrite <- IHd; f_equal; lia.
Qed.

Lemma digits_value_uint (d : Decimal.uint) :
  digits_value (uint_chars d) = N.of_uint d.
Proof.
  unfold N.of_uint, digits_value.
  induction d; cbn [uint_chars fold_left Pos.of_uint];
    [reflexivity | exact IHd | ..];
    rewrite <- uint_chars_acc; reflexivity.
Qed.

Lemma decimal_digits (n : N) : forallb isDigit (decimal n) = true.
Proof. apply uint_chars_digits. Qed.

Lemma decimal_value (n : N) : digits_value (decimal n) = n.
Proof. unfold decimal. rewrite digits_value_uint. apply DecimalN.Unsigned.of_to. Qed.

Lemma decimal_nonempty (n : N) : decimal n <> [].
Proof.
  unfold decimal. destruct n as [|p]; [discriminate|]. simpl.
  pose proof (DecimalPos.Unsigned.to_uint_nonnil p) as H.
  destruct (Pos.to_uint p); [congruence | discriminate ..].
Qed.

Lemma digits_value_zeros (z : nat) (ds : jsstring) :
  digits_value (repeat 48 z ++ ds) = digits_value ds.
Proof.
  rewrite digits_value_app.
  replace (digits_value (repeat 48 z)) with 0; [reflexivity|].
  induction z as [|z IH]; [reflexivity|].
  change (repeat 48 (S z)) with ([48] ++ repeat 48 z).
  rewrite digits_value_app. exact IH.
Qed.

Lemma zeros_digits (z : nat) (ds : jsstring) :
  forallb isDigit ds = true -> forallb isDigit (repeat 48 z ++ ds) = true.
Proof. intros H. induction z; simpl; auto. Qed.

(** ** Declaration keys *)

Lemma split_no_sep (sep : char) (s : jsstring) :
  forallb (fun c => negb (char_eqb c sep)) s = true -> split sep s = [s].
Proof.
  induction s as [|c s IH]; simpl; [reflexivity|].
  rewrite andb_true_iff. intros [Hc Hs].
  apply negb_true_iff in Hc. rewrite Hc, (IH Hs). reflexivity.
Qed.

Lemma split_app_sep (sep : char) (a b : jsstring) :
  forallb (fun c => negb (char_eqb c sep)) a = true ->
  split sep (a ++ sep :: b) = a :: split sep b.
Proof.
  induction a as [|c a IH]; simpl.
  - intros _. unfold char_eqb. rewrite N.eqb_refl. reflexivity.
  - rewrite andb_true_iff. intros [Hc Ha].
    apply negb_true_iff in Hc. rewrite Hc, (IH Ha). reflexivity.
Qed.

Lemma digits_no_underscore (ds : jsstring) :
  forallb isDigit ds = true ->
  forallb (fun c => negb (char_eqb c underscore)) ds = true.
Proof.
  induction ds as [|c ds IH]; simpl; [reflexivity|].
  rewrite !andb_true_iff. intros [Hc Hds]. split; [|auto].
  apply isDigit_range in Hc. apply negb_true_iff. unfold char_eqb, underscore.
  destruct (N.eqb_spec c 95); [lia|reflexivity].
Qed.

(** [k.split('_')[3]] on a declaration key is its digits segment. *)
Lemma split_declaration_key (ds : jsstring) :
  forallb isDigit ds = true ->
  nth_error (split underscore (CONNECTION_PREFIX ++ ds)) 3 = Some ds.
Proof.
  intros H.
  change (CONNECTION_PREFIX ++ ds)
    with (js "AZURE" ++ underscore ::
          (js "STORAGE" ++ underscore :: (js "CONNECTION" ++ underscore :: ds))).
  rewrite !split_app_sep by reflexivity.
  rewrite (split_no_sep _ _ (digits_no_underscore ds H)). reflexivity.
Qed.

Lemma digits_segment_Some (k ds : jsstring) :
  digits_segment k = Some ds <->
  k = CONNECTION_PREFIX ++ ds /\ ds <> [] /\ forallb isDigit ds = true.
Proof.
  unfold digits_segment. split.
  - destruct (strip_prefix CONNECTION_PREFIX k) as [[|c s]|] eqn:E;
      try discriminate.
    destruct (forallb isDigit (c :: s)) eqn:F; [|discriminate].
    intros H; inversion H; subst ds.
    split; [apply strip_prefix_Some, E | split; [discriminate | exact F]].
  - intros (-> & Hne & Hd). rewrite strip_prefix_app.
    destruct ds as [|c s]; [congruence|]. rewrite Hd. reflexivity.
Qed.

Lemma r_test_segment (k : jsstring) :
  r_test k = match digits_segment k with Some _ => true | None => false end.
Proof.
  unfold r_test, digits_segment.
  destruct (strip_prefix CONNECTION_PREFIX k) as [[|c s]|]; try reflexivity.
  destruct (forallb isDigit (c :: s)); reflexivity.
Qed.

Lemma declaration_key_segment (index : N) :
  digits_segment (declaration_key index) = Some (decimal index).
Proof.
  apply digits_segment_Some.
  split; [reflexivity | split; [apply decimal_nonempty | apply decimal_digits]].
Qed.

(** ** Index resolution *)

Lemma filter_filter {A : Type} (p q : A -> bool) (l : list A) :
  filter q (filter p l) = filter (fun x => p x && q x) l.
Proof.
  induction l as [|x l IH]; simpl; [reflexivity|].
  destruct (p x); simpl; [destruct (q x)|]; rewrite IH; reflexivity.
Qed.

Lemma find_pointwise {A : Type} (p q : A -> bool) (l : list A) :
  (forall x, p x = q x) -> find p l = find q l.
Proof.
  intros H. induction l as [|x l IH]; simpl; [reflexivity|].
  rewrite H, IH. reflexivity.
Qed.

Lemma element0_map_filter (f : jsstring -> option jsstring)
    (p : jsstring -> bool) (l : list jsstring) :
  element0 (List.map f (filter p l)) =
  match find p l with Some k => f k | None => None end.
Proof.
  induction l as [|x l IH]; simpl; [reflexivity|].
  destruct (p x); [reflexivity | exact IH].
Qed.

Lemma declares_filters (env : Env) (name k : jsstring) :
  declares env name k = r_test k && strict_eq (opt_trim (get env k)) name.
Proof.
  unfold declares. rewrite r_test_segment.
  destruct (digits_segment k); reflexivity.
Qed.

Lemma first_declaration_declares (env : Env) (name k : jsstring) :
  first_declaration env name = Some k ->
  In k (keys env) /\
  (exists ds, digits_segment k = Some ds) /\
  opt_trim (get env k) = Some name.
Proof.
  intros H. apply find_some in H. destruct H as [Hin Hd].
  split; [exact Hin|]. unfold declares in Hd.
  destruct (digits_segment k) as [ds|]; [|discriminate].
  split; [exists ds; reflexivity | apply strict_eq_true, Hd].
Qed.

(** The value computed by the pipeline of the source, before the test
    for NaN. *)
Lemma resolved_number (env : Env) (name : jsstring) :
  getAzureStorageConnectionNrFromEnvVar env name =
  match first_declaration env name with
  | Some k =>
      match digits_segment k with
      | Some ds => Return (to_number false (digits_value ds))
      | None => Throw (not_found_or_defined name)
      end
  | None => Throw (not_found_or_defined name)
  end.
Proof.
  unfold getAzureStorageConnectionNrFromEnvVar, first_declaration.
  rewrite filter_filter, element0_map_filter.
  rewrite (find_pointwise _ (declares env name))
    by (intros; symmetry; apply declares_filters).
  destruct (find (declares env name) (keys env)) as [k|] eqn:F; [|reflexivity].
  apply find_some in F. destruct F as [_ F]. unfold declares in F.
  destruct (digits_segment k) as [ds|] eqn:E; [|discriminate].
  apply digits_segment_Some in E. destruct E as (-> & Hne & Hd).
  rewrite (split_declaration_key ds Hd).
  destruct ds as [|c s]; [congruence|].
  pose proof (parseInt_digits c s Hd) as P. unfold jsstring in *. rewrite P.
  unfold to_number. destruct (round_binary64 _); reflexivity.
Qed.

(** The first declaration is a key that declares the name and comes
    before every other such key. *)
Lemma first_declaration_split (env : Env) (name k : jsstring) :
  first_declaration env name = Some k <->
  exists before after,
    keys env = before ++ k :: after /\
    declares env name k = true /\
    forallb (fun k' => negb (declares env name k')) before = true.
Proof.
  unfold first_declaration. generalize (keys env) as l.
  induction l as [|x l IH]; simpl.
  - split; [discriminate|]. intros (b & a & H & _). destruct b; discriminate.
  - destruct (declares env name x) eqn:D.
    + split.
      * intros H; inversion H; subst x. exists [], l. auto.
      * intros (b & a & H & Hk & Hb). destruct b as [|y b].
        -- inversion H. reflexivity.
        -- inversion H; subst y. simpl in Hb. rewrite D in Hb. discriminate.
    + rewrite IH. split.
      * intros (b & a & -> & Hk & Hb). exists (x :: b), a. simpl. rewrite D. auto.
      * intros (b & a & H & Hk & Hb). destruct b as [|y b].
        -- inversion H; subst x. congruence.
        -- inversion H; subst y. exists b, a. simpl in Hb. rewrite D in Hb. auto.
Qed.

(** A name declared by one key only is resolved through that key. *)
Lemma first_declaration_unique (env : Env) (name k : jsstring) :
  In k (keys env) ->
  declares env name k = true ->
  (forall k', In k' (keys env) -> declares env name k' = true -> k' = k) ->
  first_declaration env name = Some k.
Proof.
  intros Hin Hk Hu. unfold first_declaration.
  destruct (find (declares env name) (keys env)) as [k'|] eqn:F.
  - apply find_some in F. destruct F as [Hin' Hk']. f_equal. auto.
  - exfalso. pose proof (find_none _ _ F k Hin) as H. congruence.
Qed.

(** ** Resolution of the options *)


Lemma with_length_nonempty (s : jsstring) :
  s <> [] -> with_length (Some s) = Some s.
Proof. destruct s; [congruence | reflexivity]. Qed.

Lemma with_length_Some (v : option jsstring) (s : jsstring) :
  with_length v = Some s -> v = Some s /\ s <> [].
Proof.
  destruct v as [[|c t]|]; simpl; try discriminate.
  intros H; inversion H. split; [reflexivity | discriminate].
Qed.

(** The container-level resolution once the index is known: the
    service-level resolution, then the choice of the container. *)
Lemma container_options_unfold (env : Env) (name : jsstring)
    (override : option jsstring) (nr : number) :
  getAzureStorageConnectionNrFromEnvVar env name = Return nr ->
  defaultGetContainerClientOptions env name override =
  (so <- defaultGetBlobStorageClientOptions env name ;;
   match with_length (opt_trim override) with
   | Some c => Return {| storage := so; container := c |}
   | None =>
       match with_length (opt_trim (get env (container_key nr))) with
       | Some c => Return {| storage := so; container := c |}
       | None => Throw no_container_defined
       end
   end).
Proof.
  intros H. unfold defaultGetContainerClientOptions. rewrite H. simpl bind.
  destruct (defaultGetBlobStorageClientOptions env name) as [so|e]; simpl;
    [|reflexivity].
  destruct (with_length (opt_trim override)) as [c|] eqn:E; [|reflexivity].
  rewrite E. reflexivity.
Qed.

Lemma service_options_unfold (env : Env) (name : jsstring) (nr : number) :
  getAzureStorageConnectionNrFromEnvVar env name = Return nr ->
  defaultGetBlobStorageClientOptions env name =
  match with_length (opt_trim (get env (url_key nr))) with
  | Some u => Return {| url := u |}
  | None => Throw (connection_not_found name)
  end.
Proof.
  intros H. unfold defaultGetBlobStorageClientOptions. rewrite H. simpl bind.
  destruct (with_length _); reflexivity.
Qed.

(** Up to [2^53] the number is the integer and prints as its canonical
    decimal numeral. *)
Lemma to_number_safe (index : N) :
  index <= safe_bound -> to_number false index = Num false index.
Proof.
  intros H. unfold to_number, round_binary64.
  destruct (N.leb_spec index safe_bound); [reflexivity | lia].
Qed.

Lemma number_to_string_safe (index : N) :
  index <= safe_bound -> number_to_string (Num false index) = decimal index.
Proof.
  intros H. unfold number_to_string. destruct index as [|p]; [reflexivity|].
  unfold magnitude_to_string.
  destruct (N.leb_spec (N.pos p) safe_bound); [reflexivity | lia].
Qed.

Lemma resolved_index (env : Env) (name ds : jsstring) :
  first_declaration env name = Some (CONNECTION_PREFIX ++ ds) ->
  ds <> [] -> forallb isDigit ds = true ->
  getAzureStorageConnectionNrFromEnvVar env name =
  Return (to_number false (digits_value ds)).
Proof.
  intros F Hne Hd. rewrite resolved_number, F.
  rewrite (proj2 (digits_segment_Some (CONNECTION_PREFIX ++ ds) ds)); auto.
Qed.

(** ** The claims on the resolver *)

(** C1, as amended.  Index resolution goes through the first key, in
    enumeration order, that matches [^AZURE_STORAGE_CONNECTION_\d+$] and
    whose trimmed value is exactly the requested name, and returns what
    [parseInt] makes of the digits segment of that key.  That is never
    NaN; it is the integer the digits write whenever this integer is at
    most [2^53], and in general the double nearest to it.  When no key
    matches, the call throws the error "No azure storage connection
    <name> found or defined", whose message contains the name. *)
Theorem resolve_connection_index (env : Env) (name : jsstring) :
  match first_declaration env name with
  | Some k =>
      exists ds : jsstring,
        k = CONNECTION_PREFIX ++ ds /\ ds <> [] /\
        forallb isDigit ds = true /\
        opt_trim (get env k) = Some name /\
        parseInt (Some ds) = to_number false (digits_value ds) /\
        isNaN (parseInt (Some ds)) = false /\
        getAzureStorageConnectionNrFromEnvVar env name =
          Return (parseInt (Some ds)) /\
        (digits_value ds <= 2 ^ 53 ->
         getAzureStorageConnectionNrFromEnvVar env name =
           Return (Num false (digits_value ds)))
  | None =>
      let message :=
        js "No azure storage connection " ++ name ++ js " found or defined" in
      getAzureStorageConnectionNrFromEnvVar env name = Throw (Error message)
      /\ includes message name = true
  end.
Proof.
  destruct (first_declaration env name) as [k|] eqn:F.
  - destruct (first_declaration_declares env name k F) as (_ & (ds & E) & V).
    exists ds. pose proof E as E'.
    apply digits_segment_Some in E'. destruct E' as (-> & Hne & Hd).
    assert (P : parseInt (Some ds) = to_number false (digits_value ds)).
    { destruct ds as [|c s]; [congruence | apply parseInt_digits, Hd]. }
    pose proof (resolved_index env name ds F Hne Hd) as R.
    unfold jsstring in *. repeat split; auto.
    + rewrite P. unfold to_number. destruct (round_binary64 _); reflexivity.
    + rewrite P. exact R.
    + intros Hs. rewrite R, to_number_safe by exact Hs. reflexivity.
  - split.
    + rewrite resolved_number, F. reflexivity.
    + apply includes_app.
Qed.

(** C1, as stated, fails: the first key declaring "acme" has the digits
    segment [09007199254740993], which writes the integer [2^53 + 1];
    index resolution returns [9007199254740992], another integer. *)
Lemma resolved_index_not_the_integer :
  let ds := js "09007199254740993" in
  first_declaration env_beyond_safe (js "acme") =
    Some (CONNECTION_PREFIX ++ ds) /\
  digits_value ds = 9007199254740993 /\
  getAzureStorageConnectionNrFromEnvVar env_beyond_safe (js "acme") =
    Return (Num false 9007199254740992) /\
  getAzureStorageConnectionNrFromEnvVar env_beyond_safe (js "acme") <>
    Return (Num false (digits_value ds)).
Proof. vm_compute. repeat split. discriminate. Qed.

(** C2, as amended.  Let [index <= 2^53], let the key
    [AZURE_STORAGE_CONNECTION_<index>] (index in canonical decimal) be the
    first declaration of [name], and let
    [AZURE_STORAGE_CONNECTION_<index>_URL] be set to [U] with [U] not
    blank.  Then service-level resolution returns the record whose url is
    [U] trimmed. *)
Theorem service_resolution_trimmed_url
    (env : Env) (name : jsstring) (index : N) (U : jsstring) :
  index <= 2 ^ 53 ->
  first_declaration env name = Some (declaration_key index) ->
  get env (url_key_of index) = Some U ->
  trim U <> [] ->
  defaultGetBlobStorageClientOptions env name = Return {| url := trim U |}.
Proof.
  intros Hi F HU Hne.
  assert (R : getAzureStorageConnectionNrFromEnvVar env name =
              Return (Num false index)).
  { rewrite (resolved_index env name (decimal index) F
               (decimal_nonempty index) (decimal_digits index)).
    rewrite decimal_value, to_number_safe by exact Hi. reflexivity. }
  rewrite (service_options_unfold env name _ R).
  unfold url_key. rewrite number_to_string_safe by exact Hi.
  fold (url_key_of index). rewrite HU. simpl opt_trim.
  rewrite with_length_nonempty by exact Hne. reflexivity.
Qed.

Lemma service_resolution_trimmed_url_witness :
  defaultGetBlobStorageClientOptions env_padded_url (js "acme") =
  Return {| url := js "https://x/" |}.
Proof.
  apply (service_resolution_trimmed_url env_padded_url (js "acme") 1
           (js " https://x/ ")).
  - vm_compute. discriminate.
  - reflexivity.
  - reflexivity.
  - discriminate.
Defined.

(** C2, as stated, fails: with [AZURE_STORAGE_CONNECTION_1=acme] and
    [AZURE_STORAGE_CONNECTION_1_URL] set to [U = " https://x/ "] the
    resolution succeeds, but with a url other than [U]. *)
Lemma service_resolution_not_verbatim :
  let U := js " https://x/ " in
  get env_padded_url (declaration_key 1) = Some (js "acme") /\
  get env_padded_url (url_key_of 1) = Some U /\
  defaultGetBlobStorageClientOptions env_padded_url (js "acme") <>
    Return {| url := U |}.
Proof. repeat split. vm_compute. discriminate. Qed.







(** C9, as amended.  Let the first declaration of [name] be a key whose
    digits segment is any number of zeros followed by the canonical
    decimal numeral of [index], with [index <= 2^53].  Then the index
    resolves to the integer [index], and the url and the container are
    read from [AZURE_STORAGE_CONNECTION_<index>_URL] and
    [AZURE_STORAGE_CONNECTION_<index>_CONTAINER] with [index] in canonical
    decimal, not from the keys spelled with the zeros. *)
Theorem leading_zeros_canonical_lookup
    (env : Env) (name : jsstring) (zeros : nat) (index : N) :
  index <= 2 ^ 53 ->
  first_declaration env name =
    Some (CONNECTION_PREFIX ++ repeat 48 zeros ++ decimal index) ->
  getAzureStorageConnectionNrFromEnvVar env name = Return (Num false index)
  /\
  defaultGetBlobStorageClientOptions env name =
    match with_length (opt_trim (get env (url_key_of index))) with
    | Some u => Return {| url := u |}
    | None => Throw (connection_not_found name)
    end
  /\
  forall override,
    defaultGetContainerClientOptions env name override =
    (so <- defaultGetBlobStorageClientOptions env name ;;
     match with_length (opt_trim override) with
     | Some c => Return {| storage := so; container := c |}
     | None =>
         match with_length (opt_trim (get env (container_key_of index))) with
         | Some c => Return {| storage := so; container := c |}
         | None => Throw no_container_defined
         end
     end).
Proof.
  intros Hi F.
  assert (R : getAzureStorageConnectionNrFromEnvVar env name =
              Return (Num false index)).
  { rewrite (resolved_index env name (repeat 48 zeros ++ decimal index) F).
    - rewrite digits_value_zeros, decimal_value, to_number_safe by exact Hi.
      reflexivity.
    - intros E. apply app_eq_nil in E. destruct E as [_ E].
      exact (decimal_nonempty index E).
    - apply zeros_digits, decimal_digits. }
  split; [exact R | split].
  - rewrite (service_options_unfold env name _ R). unfold url_key.
    rewrite number_to_string_safe by exact Hi. reflexivity.
  - intros override.
    rewrite (container_options_unfold env name override _ R).
    unfold container_key. rewrite number_to_string_safe by exact Hi.
    reflexivity.
Qed.

Lemma leading_zeros_canonical_lookup_witness :
  getAzureStorageConnectionNrFromEnvVar env_007 (js "acme") =
    Return (Num false 7)
  /\ defaultGetBlobStorageClientOptions env_007 (js "acme") =
       Return {| url := js "https://x/" |}
  /\ defaultGetContainerClientOptions env_007 (js "acme") None =
       Return {| storage := {| url := js "https://x/" |};
                 container := js "logs" |}.
Proof.
  assert (B : 7 <= 2 ^ 53) by (vm_compute; discriminate).
  destruct (leading_zeros_canonical_lookup env_007 (js "acme") 2 7 B eq_refl)
    as (R & S & C).
  split; [exact R | split].
  - rewrite S. reflexivity.
  - rewrite (C None), S. reflexivity.
Defined.

(** C9, as stated, fails: the digits [09007199254740993] write the
    integer [2^53 + 1], whose canonical decimal numeral is
    [9007199254740993]; the url is not read from
    [AZURE_STORAGE_CONNECTION_9007199254740993_URL], which holds
    [https://x/], but from [AZURE_STORAGE_CONNECTION_9007199254740992_URL]. *)
Lemma beyond_safe_lookup_not_canonical :
  let index := 9007199254740993 in
  first_declaration env_beyond_safe (js "acme") =
    Some (CONNECTION_PREFIX ++ repeat 48 1 ++ decimal index) /\
  digits_value (js "09007199254740993") = index /\
  get env_beyond_safe (url_key_of index) = Some (js "https://x/") /\
  defaultGetBlobStorageClientOptions env_beyond_safe (js "acme") =
    Return {| url := js "https://y/" |}.
Proof. vm_compute. repeat split. Qed.

(** C10.  Whenever container-level resolution succeeds, service-level
    resolution of the same name under the same environment succeeds too,
    and the two records have the same url. *)
Theorem container_url_is_service_url
    (env : Env) (name : jsstring) (override : option jsstring)
    (co : IContainerClientOptions) :
  defaultGetContainerClientOptions env name override = Return co ->
  exists so,
    defaultGetBlobStorageClientOptions env name = Return so /\
    url co = url so.
Proof.
  unfold defaultGetContainerClientOptions.
  destruct (getAzureStorageConnectionNrFromEnvVar env name) as [nr|e];
    simpl bind; [|discriminate].
  destruct (defaultGetBlobStorageClientOptions env name) as [so|e];
    simpl bind; [|discriminate].
  intros H. exists so. split; [reflexivity|].
  destruct (with_length _); [|discriminate].
  inversion H. reflexivity.
Qed.

Lemma container_url_is_service_url_witness :
  exists so,
    defaultGetBlobStorageClientOptions env_acme (js "acme") = Return so /\
    js "https://x/" = url so.
Proof.
  apply (container_url_is_service_url env_acme (js "acme")
           (Some (js "override"))
           {| storage := {| url := js "https://x/" |};
              container := js "override" |}).
  reflexivity.
Defined.

(** ** The claims on the factory builders *)

Section FactoryFacts.

Variables BlobServiceClient ContainerClient : Type.
Variable fromConnectionString : value -> result BlobServiceClient.
Variable sdk_getContainerClient :
  BlobServiceClient -> value -> result ContainerClient.

Local Abbreviation createBlob :=
  (createGetBlobServiceClientFactory BlobServiceClient fromConnectionString).
Local Abbreviation createContainer :=
  (createGetContainerClientFactory BlobServiceClient ContainerClient
     fromConnectionString sdk_getContainerClient).

(** After the normalisation [getOptions] is a function whatever was
    passed, so the test that guards the TypeError never fires. *)
Lemma blob_factory_total (optionsOrFunc : BlobSource) :
  exists provider, createBlob optionsOrFunc = Return provider.
Proof.
  unfold createGetBlobServiceClientFactory.
  destruct optionsOrFunc as [[| | | |]| |]; simpl; eexists; reflexivity.
Qed.

Lemma container_factory_total (optionsOrFunc : ContainerSource) :
  exists provider, createContainer optionsOrFunc = Return provider.
Proof.
  unfold createGetContainerClientFactory.
  destruct optionsOrFunc as [[| | | |]| |]; simpl; eexists; reflexivity.
Qed.

(** C6.  For a static options record [O], both builders succeed on [O]
    and on the constant function returning [O], and the two providers
    give the same result in every environment, for every name and every
    container override. *)
Theorem static_options_as_constant_function :
  (forall O : IBlobStorageClientOptions,
     exists p q,
       createBlob (Obj O) = Return p /\
       createBlob (Fn (fun _ _ => Return (Obj O))) = Return q /\
       forall env name, p env name = q env name)
  /\
  (forall O : IContainerClientOptions,
     exists p q,
       createContainer (Obj O) = Return p /\
       createContainer (Fn (fun _ _ => Return (Obj O))) = Return q /\
       forall env name override, p env name override = q env name override).
Proof.
  split; intros O; do 2 eexists;
    (split; [reflexivity | split; [reflexivity | reflexivity]]).
Qed.

(** C7, on the code.  Called with the number 42, which is neither a
    function nor an options object, both builders return a provider
    instead of throwing the TypeError; the provider then hands
    [undefined] to the SDK. *)
Theorem number_accepted_as_options_source :
  let bad_blob : BlobSource := Prim (VNumber (Num false 42)) in
  let bad_container : ContainerSource := Prim (VNumber (Num false 42)) in
  createBlob bad_blob <> Throw must_be_function_or_object /\
  createContainer bad_container <> Throw must_be_function_or_object /\
  (exists p,
     createBlob bad_blob = Return p /\
     forall env name, p env name = fromConnectionString VUndefined) /\
  (exists p,
     createContainer bad_container = Return p /\
     forall env name override,
       p env name override =
       (client <- fromConnectionString VUndefined ;;
        sdk_getContainerClient client VUndefined)).
Proof.
  repeat split; try discriminate; eexists; split; reflexivity.
Qed.

(** C8.  Under the environment that declares connection 1 as "acme" with
    url "https://x/" and container "logs": the options for "acme" are
    that url with container "logs", or with container "override" when
    that override is passed; the exported [getContainerClient] builds
    its client from exactly these values; and for "unknown" both throw
    the error "No azure storage connection unknown found or defined". *)
Theorem acme_scenario :
  defaultGetContainerClientOptions env_acme (js "acme") None =
    Return {| storage := {| url := js "https://x/" |};
              container := js "logs" |}
  /\
  defaultGetContainerClientOptions env_acme (js "acme") (Some (js "override")) =
    Return {| storage := {| url := js "https://x/" |};
              container := js "override" |}
  /\
  defaultGetContainerClientOptions env_acme (js "unknown") None =
    Throw (Error (js "No azure storage connection unknown found or defined"))
  /\
  exists provider,
    getContainerClient BlobServiceClient ContainerClient
      fromConnectionString sdk_getContainerClient = Return provider /\
    provider env_acme (js "acme") None =
      (client <- fromConnectionString (VString (js "https://x/")) ;;
       sdk_getContainerClient client (VString (js "logs"))) /\
    provider env_acme (js "acme") (Some (js "override")) =
      (client <- fromConnectionString (VString (js "https://x/")) ;;
       sdk_getContainerClient client (VString (js "override"))) /\
    provider env_acme (js "unknown") None =
      Throw (Error (js "No azure storage connection unknown found or defined")).
Proof.
  repeat split. eexists. repeat split.
Qed.

End FactoryFacts.

(** * Further properties of the resolver and the builders *)

(** ** Trimming *)

Lemma drop_while_length (p : char -> bool) (s : jsstring) :
  (List.length (drop_while p s) <= List.length s)%nat.
Proof.
  induction s as [|c s IH]; simpl; [lia|].
  destruct (p c); simpl; lia.
Qed.

Lemma drop_while_head (p : char -> bool) (s : jsstring) (c : char)
    (t : jsstring) :
  drop_while p s = c :: t -> p c = false.
Proof.
  induction s as [|x s IH]; simpl; [discriminate|].
  destruct (p x) eqn:E; [exact IH|]. intros H; inversion H; subst; exact E.
Qed.

Lemma drop_while_fixed (p : char -> bool) (s : jsstring) :
  drop_while p (drop_while p s) = drop_while p s.
Proof.
  destruct (drop_while p s) as [|c t] eqn:E; [reflexivity|].
  simpl. rewrite (drop_while_head p s c t E). reflexivity.
Qed.

(** What [drop_while] removes is a prefix. *)
Lemma drop_while_suffix (p : char -> bool) (s : jsstring) :
  exists w, s = w ++ drop_while p s.
Proof.
  induction s as [|c s [w IH]]; simpl; [exists []; reflexivity|].
  destruct (p c); [exists (c :: w); simpl; f_equal; exact IH | exists []; reflexivity].
Qed.

Lemma trim_no_leading_space (s : jsstring) (c : char) (t : jsstring) :
  trim s = c :: t -> isWhiteSpace c = false.
Proof.
  unfold trim, trimEnd, trimStart. set (u := drop_while isWhiteSpace s).
  destruct (drop_while_suffix isWhiteSpace (rev u)) as [w Hw].
  intros H.
  assert (U : u = (c :: t) ++ rev w).
  { rewrite <- H, <- rev_app_distr, <- Hw, rev_involutive. reflexivity. }
  simpl in U. exact (drop_while_head isWhiteSpace s c _ U).
Qed.

Lemma trim_idempotent (s : jsstring) : trim (trim s) = trim s.
Proof.
  destruct (trim s) as [|c t] eqn:E; [reflexivity|].
  pose proof (trim_no_leading_space s c t E) as Hc.
  unfold trim at 1, trimStart. simpl drop_while. rewrite Hc.
  rewrite <- E. unfold trim, trimEnd.
  rewrite rev_involutive, drop_while_fixed. reflexivity.
Qed.

(** ** Names that are not declared *)

Lemma find_none_iff {A : Type} (p : A -> bool) (l : list A) :
  find p l = None <-> forall x, In x l -> p x = false.
Proof.
  split; [intros H x; apply (find_none p l H)|].
  induction l as [|x l IH]; simpl; [reflexivity|]. intros H.
  rewrite (H x (or_introl eq_refl)). apply IH. intros y Hy. apply H. auto.
Qed.

Lemma undeclared_index (env : Env) (name : jsstring) :
  (forall k, In k (keys env) -> declares env name k = false) ->
  getAzureStorageConnectionNrFromEnvVar env name =
    Throw (not_found_or_defined name).
Proof.
  intros H. rewrite resolved_number. unfold first_declaration.
  rewrite (proj2 (find_none_iff _ _) H). reflexivity.
Qed.

(** A key declares only names that are their own trimmed form. *)
Lemma declares_trimmed (env : Env) (name k : jsstring) :
  declares env name k = true -> trim name = name.
Proof.
  unfold declares. destruct (digits_segment k); [|discriminate].
  rewrite strict_eq_true. unfold opt_trim.
  destruct (get env k) as [v|]; simpl; [|discriminate].
  intros H; inversion H. apply trim_idempotent.
Qed.

(** X2.  The resolved index is never NaN and never negative: it is a
    double of positive sign with an integer magnitude, or [+Infinity]. *)
Theorem resolved_index_is_non_negative
    (env : Env) (name : jsstring) (nr : number) :
  getAzureStorageConnectionNrFromEnvVar env name = Return nr ->
  isNaN nr = false /\ ((exists m, nr = Num false m) \/ nr = Inf false).
Proof.
  rewrite resolved_number.
  destruct (first_declaration env name) as [k|]; [|discriminate].
  destruct (digits_segment k) as [ds|]; [|discriminate].
  unfold to_number. destruct (round_binary64 (digits_value ds)) as [v|];
    intros H; inversion H; subst nr; split; try reflexivity;
    [left; exists v; reflexivity | right; reflexivity].
Qed.

Lemma resolved_index_is_non_negative_witness :
  isNaN (Num false 1) = false /\
  ((exists m, Num false 1 = Num false m) \/ Num false 1 = Inf false).
Proof.
  apply (resolved_index_is_non_negative env_acme (js "acme") (Num false 1)).
  reflexivity.
Defined.

(** X3.  A name written with white space at either end is never found,
    whatever the environment: declared values are compared after
    trimming, the requested name is compared as it is. *)
Theorem padded_name_never_found (env : Env) (name : jsstring) :
  trim name <> name ->
  getAzureStorageConnectionNrFromEnvVar env name =
    Throw (not_found_or_defined name)
  /\ defaultGetBlobStorageClientOptions env name =
       Throw (not_found_or_defined name)
  /\ forall override,
       defaultGetContainerClientOptions env name override =
         Throw (not_found_or_defined name).
Proof.
  intros Hn.
  assert (R : getAzureStorageConnectionNrFromEnvVar env name =
              Throw (not_found_or_defined name)).
  { apply undeclared_index. intros k _.
    destruct (declares env name k) eqn:D; [|reflexivity].
    exfalso. exact (Hn (declares_trimmed env name k D)). }
  split; [exact R | split].
  - unfold defaultGetBlobStorageClientOptions. rewrite R. reflexivity.
  - intros override. unfold defaultGetContainerClientOptions. rewrite R.
    reflexivity.
Qed.

Lemma padded_name_never_found_witness :
  getAzureStorageConnectionNrFromEnvVar env_acme (js "acme ") =
    Throw (not_found_or_defined (js "acme "))
  /\ defaultGetBlobStorageClientOptions env_acme (js "acme ") =
       Throw (not_found_or_defined (js "acme "))
  /\ forall override,
       defaultGetContainerClientOptions env_acme (js "acme ") override =
         Throw (not_found_or_defined (js "acme ")).
Proof.
  apply (padded_name_never_found env_acme (js "acme ")).
  vm_compute. discriminate.
Defined.

(** X4.  Whatever resolution returns is ready to use: the url of a
    service-level record, and the url and the container of a
    container-level record, are not empty and carry no white space at
    either end. *)
Theorem resolved_options_are_trimmed (env : Env) (name : jsstring) :
  (forall so,
     defaultGetBlobStorageClientOptions env name = Return so ->
     url so <> [] /\ trim (url so) = url so)
  /\
  (forall override co,
     defaultGetContainerClientOptions env name override = Return co ->
     url co <> [] /\ trim (url co) = url co /\
     container co <> [] /\ trim (container co) = container co).
Proof.
  assert (T : forall v s, with_length (opt_trim v) = Some s ->
                          s <> [] /\ trim s = s).
  { intros v s H. apply with_length_Some in H. destruct H as [H Hne].
    split; [exact Hne|]. destruct v as [x|]; simpl in H; [|discriminate].
    inversion H. apply trim_idempotent. }
  assert (S : forall so,
             defaultGetBlobStorageClientOptions env name = Return so ->
             url so <> [] /\ trim (url so) = url so).
  { intros so. unfold defaultGetBlobStorageClientOptions.
    destruct (getAzureStorageConnectionNrFromEnvVar env name) as [nr|e];
      simpl bind; [|discriminate].
    destruct (with_length _) as [u|] eqn:E; [|discriminate].
    intros H; inversion H; subst so. simpl. exact (T _ _ E). }
  split; [exact S|].
  intros override co.
  destruct (getAzureStorageConnectionNrFromEnvVar env name) as [nr|e] eqn:R.
  - rewrite (container_options_unfold env name override nr R).
    destruct (defaultGetBlobStorageClientOptions env name) as [so|e] eqn:B;
      simpl bind; [|discriminate].
    destruct (S so eq_refl) as [U1 U2].
    destruct (with_length (opt_trim override)) as [c|] eqn:E.
    + intros H; inversion H; subst co. simpl.
      destruct (T _ _ E). auto.
    + destruct (with_length (opt_trim (get env (container_key nr))))
        as [c|] eqn:E'; [|discriminate].
      intros H; inversion H; subst co. simpl.
      destruct (T _ _ E'). auto.
  - unfold defaultGetContainerClientOptions. rewrite R. discriminate.
Qed.

(** X5.  When several keys declare the same name, the one enumerated
    first decides the index; the keys after it play no part. *)
Theorem first_declaration_wins
    (env : Env) (name : jsstring) (before after : list jsstring)
    (ds : jsstring) :
  keys env = before ++ (CONNECTION_PREFIX ++ ds) :: after ->
  ds <> [] -> forallb isDigit ds = true ->
  opt_trim (get env (CONNECTION_PREFIX ++ ds)) = Some name ->
  (forall k, In k before -> declares env name k = false) ->
  getAzureStorageConnectionNrFromEnvVar env name =
    Return (to_number false (digits_value ds)).
Proof.
  intros Hk Hne Hd Hv Hb. apply resolved_index; [|exact Hne|exact Hd].
  apply first_declaration_split. exists before, after.
  split; [exact Hk | split].
  - unfold declares.
    rewrite (proj2 (digits_segment_Some _ ds)) by auto.
    apply strict_eq_true, Hv.
  - apply forallb_forall. intros k Hin. rewrite (Hb k Hin). reflexivity.
Qed.

Lemma first_declaration_wins_witness :
  getAzureStorageConnectionNrFromEnvVar env_twice (js "acme") =
    Return (Num false 2).
Proof.
  apply (first_declaration_wins env_twice (js "acme") []
           [js "AZURE_STORAGE_CONNECTION_1";
            js "AZURE_STORAGE_CONNECTION_1_URL";
            js "AZURE_STORAGE_CONNECTION_2_URL"] (js "2")).
  - reflexivity.
  - discriminate.
  - reflexivity.
  - reflexivity.
  - intros k [].
Defined.

Lemma resolved_options_are_trimmed_witness :
  url {| url := js "https://x/" |} <> [] /\
  trim (url {| url := js "https://x/" |}) = url {| url := js "https://x/" |}.
Proof.
  apply (proj1 (resolved_options_are_trimmed env_padded_url (js "acme"))
           {| url := js "https://x/" |}).
  reflexivity.
Defined.

(** ** Keys of a group *)

Lemma not_digits_with_underscore (a b : jsstring) :
  forallb isDigit (a ++ underscore :: b) = false.
Proof.
  induction a as [|c a IH]; [reflexivity|].
  simpl. rewrite IH. apply andb_false_r.
Qed.

Lemma suffixed_key_no_segment (s t : jsstring) :
  digits_segment (CONNECTION_PREFIX ++ s ++ underscore :: t) = None.
Proof.
  unfold digits_segment. rewrite strip_prefix_app.
  destruct (s ++ underscore :: t) as [|c r] eqn:E; [reflexivity|].
  rewrite <- E, not_digits_with_underscore. reflexivity.
Qed.

(** X6.  The [_URL] and [_CONTAINER] variables are never taken for
    declarations, whatever they hold: the pattern rejects their keys, so
    a url or a container equal to some connection name declares
    nothing. *)
Theorem suffixed_keys_declare_nothing
    (env : Env) (name : jsstring) (nr : number) :
  r_test (url_key nr) = false /\
  r_test (container_key nr) = false /\
  declares env name (url_key nr) = false /\
  declares env name (container_key nr) = false.
Proof.
  assert (U : digits_segment (url_key nr) = None)
    by apply (suffixed_key_no_segment (number_to_string nr) (js "URL")).
  assert (C : digits_segment (container_key nr) = None)
    by apply (suffixed_key_no_segment (number_to_string nr) (js "CONTAINER")).
  rewrite !r_test_segment. unfold declares. rewrite U, C. auto.
Qed.

Lemma decimal_injective (i j : N) : decimal i = decimal j -> i = j.
Proof.
  intros H. rewrite <- (decimal_value i), <- (decimal_value j), H.
  reflexivity.
Qed.

(** X7.  Up to [2^53] two different indices never share a variable: the
    [_URL] keys of two indices are equal only for equal indices, and so
    are the [_CONTAINER] keys. *)
Theorem group_keys_injective (i j : N) :
  i <= 2 ^ 53 -> j <= 2 ^ 53 ->
  (url_key (Num false i) = url_key (Num false j) -> i = j) /\
  (container_key (Num false i) = container_key (Num false j) -> i = j).
Proof.
  intros Hi Hj. unfold url_key, container_key.
  rewrite !number_to_string_safe by assumption.
  split; intros H; apply app_inv_head, app_inv_tail in H;
    exact (decimal_injective i j H).
Qed.

Lemma group_keys_injective_witness :
  (url_key (Num false 7) = url_key (Num false 7) -> 7 = 7) /\
  (container_key (Num false 7) = container_key (Num false 7) -> 7 = 7).
Proof.
  apply (group_keys_injective 7 7); vm_compute; discriminate.
Defined.

(** ** What service-level resolution reads *)

Lemma filter_pointwise_in {A : Type} (p q : A -> bool) (l : list A) :
  (forall x, In x l -> p x = q x) -> filter p l = filter q l.
Proof.
  induction l as [|x l IH]; simpl; [reflexivity|]. intros H.
  rewrite (H x (or_introl eq_refl)), IH; [reflexivity|].
  intros y Hy. apply H. auto.
Qed.

(** X8.  Service-level resolution reads the key order, the declarations
    and the [_URL] variables, and nothing else: two environments that
    agree on these give the same result, whatever their [_CONTAINER]
    and other variables hold. *)
Theorem service_resolution_frame (env env' : Env) (name : jsstring) :
  keys env = keys env' ->
  (forall k, r_test k = true -> get env k = get env' k) ->
  (forall nr, get env (url_key nr) = get env' (url_key nr)) ->
  getAzureStorageConnectionNrFromEnvVar env name =
    getAzureStorageConnectionNrFromEnvVar env' name
  /\ defaultGetBlobStorageClientOptions env name =
       defaultGetBlobStorageClientOptions env' name.
Proof.
  intros Hk Hd Hu.
  assert (R : getAzureStorageConnectionNrFromEnvVar env name =
              getAzureStorageConnectionNrFromEnvVar env' name).
  { unfold getAzureStorageConnectionNrFromEnvVar. rewrite <- Hk.
    rewrite (filter_pointwise_in
               (fun k => strict_eq (opt_trim (get env k)) name)
               (fun k => strict_eq (opt_trim (get env' k)) name));
      [reflexivity|].
    intros k Hin. apply filter_In in Hin. destruct Hin as [_ Ht].
    rewrite (Hd k Ht). reflexivity. }
  split; [exact R|].
  unfold defaultGetBlobStorageClientOptions. rewrite <- R.
  destruct (getAzureStorageConnectionNrFromEnvVar env name) as [nr|e];
    simpl bind; [|reflexivity].
  rewrite (Hu nr). reflexivity.
Qed.

Lemma url_key_not_container (nr : number) (s : jsstring) :
  url_key nr <> CONNECTION_PREFIX ++ s ++ js "_CONTAINER".
Proof.
  unfold url_key. intros H. apply app_inv_head in H.
  apply (f_equal (@rev char)) in H. rewrite !rev_app_distr in H.
  simpl in H. discriminate.
Qed.

Lemma service_resolution_frame_witness :
  getAzureStorageConnectionNrFromEnvVar env_acme (js "acme") =
    getAzureStorageConnectionNrFromEnvVar env_acme_elsewhere (js "acme")
  /\ defaultGetBlobStorageClientOptions env_acme (js "acme") =
       defaultGetBlobStorageClientOptions env_acme_elsewhere (js "acme").
Proof.
  apply (service_resolution_frame env_acme env_acme_elsewhere (js "acme")).
  - reflexivity.
  - intros k Hk. unfold env_acme, env_acme_elsewhere. cbn [get].
    destruct (str_eqb (js "AZURE_STORAGE_CONNECTION_1") k); [reflexivity|].
    destruct (str_eqb (js "AZURE_STORAGE_CONNECTION_1_URL") k); [reflexivity|].
    destruct (str_eqb (js "AZURE_STORAGE_CONNECTION_1_CONTAINER") k) eqn:E;
      [|reflexivity].
    apply str_eqb_eq in E. subst k. discriminate Hk.
  - intros nr. unfold env_acme, env_acme_elsewhere. cbn [get].
    destruct (str_eqb (js "AZURE_STORAGE_CONNECTION_1") (url_key nr));
      [reflexivity|].
    destruct (str_eqb (js "AZURE_STORAGE_CONNECTION_1_URL") (url_key nr));
      [reflexivity|].
    destruct (str_eqb (js "AZURE_STORAGE_CONNECTION_1_CONTAINER") (url_key nr))
      eqn:E; [|reflexivity].
    apply str_eqb_eq in E. symmetry in E.
    destruct (url_key_not_container nr (js "1") E).
Defined.

(** ** Digits beyond the range of a double *)

Lemma round_binary64_overflow (m : N) :
  2 ^ 1024 <= m -> round_binary64 m = None.
Proof.
  intros H. unfold round_binary64, safe_bound.
  assert (P : 2 ^ 53 < 2 ^ 1024) by (apply N.pow_lt_mono_r; lia).
  destruct (N.leb_spec m (2 ^ 53)); [lia|].
  assert (Hm : 0 < m) by lia.
  destruct (N.log2_spec m Hm) as [Lo Hi].
  assert (L : 1024 <= N.log2 m).
  { destruct (N.le_gt_cases 1024 (N.log2 m)) as [|G]; [assumption|].
    exfalso. assert (2 ^ N.succ (N.log2 m) <= 2 ^ 1024)
      by (apply N.pow_le_mono_r; lia). lia. }
  cbv zeta. set (e := N.log2 m - 52). set (q := N.shiftr m e).
  assert (Q : 2 ^ 52 <= q).
  { unfold q. rewrite N.shiftr_div_pow2.
    apply N.div_le_lower_bound; [apply N.pow_nonzero; lia|].
    rewrite <- N.pow_add_r. replace (e + 52) with (N.log2 m) by (unfold e; lia).
    exact Lo. }
  match goal with
  | |- context [N.shiftl ?x e] => set (q' := x)
  end.
  assert (Q' : q <= q') by (unfold q'; destruct (_ || _); lia).
  destruct (N.leb_spec (2 ^ 1024) (N.shiftl q' e)) as [|G]; [reflexivity|].
  exfalso. rewrite N.shiftl_mul_pow2 in G. clearbody q'.
  assert (2 ^ 1024 <= 2 ^ N.log2 m) by (apply N.pow_le_mono_r; lia).
  assert (E : 2 ^ N.log2 m = 2 ^ 52 * 2 ^ e).
  { rewrite <- N.pow_add_r. f_equal. unfold e. lia. }
  assert (2 ^ 52 * 2 ^ e <= q' * 2 ^ e)
    by (apply N.mul_le_mono_r; lia).
  lia.
Qed.

(** X9.  A declaration whose digits write [2^1024] or more resolves to
    [Infinity] instead of failing, and the url is then read from the
    variable [AZURE_STORAGE_CONNECTION_Infinity_URL]. *)
Theorem huge_index_is_infinity (env : Env) (name ds : jsstring) :
  first_declaration env name = Some (CONNECTION_PREFIX ++ ds) ->
  ds <> [] -> forallb isDigit ds = true ->
  2 ^ 1024 <= digits_value ds ->
  getAzureStorageConnectionNrFromEnvVar env name = Return (Inf false)
  /\ defaultGetBlobStorageClientOptions env name =
       match
         with_length
           (opt_trim (get env (js "AZURE_STORAGE_CONNECTION_Infinity_URL")))
       with
       | Some u => Return {| url := u |}
       | None => Throw (connection_not_found name)
       end.
Proof.
  intros F Hne Hd Hv.
  assert (R : getAzureStorageConnectionNrFromEnvVar env name =
              Return (Inf false)).
  { rewrite (resolved_index env name ds F Hne Hd). unfold to_number.
    rewrite (round_binary64_overflow _ Hv). reflexivity. }
  split; [exact R|]. rewrite (service_options_unfold env name _ R).
  reflexivity.
Qed.

Lemma huge_index_is_infinity_witness :
  getAzureStorageConnectionNrFromEnvVar env_huge (js "acme") =
    Return (Inf false)
  /\ defaultGetBlobStorageClientOptions env_huge (js "acme") =
       Return {| url := js "https://x/" |}.
Proof.
  destruct (huge_index_is_infinity env_huge (js "acme") (repeat 57 309))
    as [R S].
  - reflexivity.
  - discriminate.
  - reflexivity.
  - vm_compute. discriminate.
  - split; [exact R | rewrite S; reflexivity].
Defined.

(** ** Providers *)

Lemma container_options_storage
    (env : Env) (name : jsstring) (override : option jsstring)
    (co : IContainerClientOptions) :
  defaultGetContainerClientOptions env name override = Return co ->
  defaultGetBlobStorageClientOptions env name = Return (storage co).
Proof.
  unfold defaultGetContainerClientOptions.
  destruct (getAzureStorageConnectionNrFromEnvVar env name) as [nr|e];
    simpl bind; [|discriminate].
  destruct (defaultGetBlobStorageClientOptions env name) as [so|e];
    simpl bind; [|discriminate].
  destruct (with_length _); [|discriminate].
  intros H; inversion H. reflexivity.
Qed.

Section ProviderFacts.

Variables BlobServiceClient ContainerClient : Type.
Variable fromConnectionString : value -> result BlobServiceClient.
Variable sdk_getContainerClient :
  BlobServiceClient -> value -> result ContainerClient.

Local Abbreviation createBlob :=
  (createGetBlobServiceClientFactory BlobServiceClient fromConnectionString).
Local Abbreviation createContainer :=
  (createGetContainerClientFactory BlobServiceClient ContainerClient
     fromConnectionString sdk_getContainerClient).
Local Abbreviation exportedBlob :=
  (getBlobServiceClient BlobServiceClient fromConnectionString).
Local Abbreviation exportedContainer :=
  (getContainerClient BlobServiceClient ContainerClient
     fromConnectionString sdk_getContainerClient).

(** X1.  When no key of the environment declares the name, every variant
    fails with the same error, "No azure storage connection <name> found
    or defined": index resolution, both option resolvers for every
    override, and both exported providers, which never reach the SDK. *)
Theorem undeclared_name_fails_everywhere (env : Env) (name : jsstring) :
  (forall k, In k (keys env) -> declares env name k = false) ->
  getAzureStorageConnectionNrFromEnvVar env name =
    Throw (not_found_or_defined name)
  /\ defaultGetBlobStorageClientOptions env name =
       Throw (not_found_or_defined name)
  /\ (forall override,
        defaultGetContainerClientOptions env name override =
          Throw (not_found_or_defined name))
  /\ (exists p, exportedBlob = Return p /\
                p env name = Throw (not_found_or_defined name))
  /\ (exists p, exportedContainer = Return p /\
                forall override,
                  p env name override = Throw (not_found_or_defined name)).
Proof.
  intros H. pose proof (undeclared_index env name H) as R.
  assert (S : defaultGetBlobStorageClientOptions env name =
              Throw (not_found_or_defined name))
    by (unfold defaultGetBlobStorageClientOptions; rewrite R; reflexivity).
  assert (C : forall override,
             defaultGetContainerClientOptions env name override =
               Throw (not_found_or_defined name))
    by (intros o; unfold defaultGetContainerClientOptions; rewrite R;
        reflexivity).
  repeat split; auto.
  - eexists. split; [reflexivity|]. simpl. rewrite S. reflexivity.
  - eexists. split; [reflexivity|]. intros o. simpl. rewrite (C o).
    reflexivity.
Qed.

(** X10.  A provider built from an options function calls that function
    with its own arguments (the name, and for containers the override
    as given) and hands the url, and the container, of the returned
    record to the SDK; an error thrown by the function comes out of the
    provider unchanged, and the SDK is not called. *)
Theorem function_source_provider :
  (forall f : GetBlobStorageClientOptions,
     exists p,
       createBlob (as_function f) = Return p /\
       (forall env name,
          p env name =
          (o <- f env name ;; fromConnectionString (VString (url o)))) /\
       (forall env name e, f env name = Throw e -> p env name = Throw e))
  /\
  (forall f : GetContainerClientOptions,
     exists p,
       createContainer (as_function (fun env a => f env (fst a) (snd a))) =
         Return p /\
       (forall env name override,
          p env name override =
          (o <- f env name override ;;
           client <- fromConnectionString (VString (url o)) ;;
           sdk_getContainerClient client (VString (container o)))) /\
       (forall env name override e,
          f env name override = Throw e -> p env name override = Throw e)).
Proof.
  split; intros f; eexists; (split; [reflexivity|]); split.
  - intros env name. simpl. destruct (f env name); reflexivity.
  - intros env name e H. simpl. rewrite H. reflexivity.
  - intros env name o. simpl. destruct (f env name o); reflexivity.
  - intros env name o e H. simpl. rewrite H. reflexivity.
Qed.

(** X11.  A provider built from a static options record gives the SDK
    the url and the container of that record on every call: the
    environment, the name and the container override passed to the
    provider are all ignored. *)
Theorem static_source_ignores_arguments :
  (forall O : IBlobStorageClientOptions,
     exists p,
       createBlob (Obj O) = Return p /\
       forall env name, p env name = fromConnectionString (VString (url O)))
  /\
  (forall O : IContainerClientOptions,
     exists p,
       createContainer (Obj O) = Return p /\
       forall env name override,
         p env name override =
         (client <- fromConnectionString (VString (url O)) ;;
          sdk_getContainerClient client (VString (container O)))).
Proof.
  split; intros O; eexists; split; reflexivity.
Qed.

(** X12.  The exported [getBlobServiceClient] hands the SDK the url
    resolved for the name; the exported [getContainerClient], when the
    container options resolve, asks for its container on the very client
    that [getBlobServiceClient] builds for that name, and when they do
    not resolve it throws their error. *)
Theorem exported_providers_compose :
  exists pb pc,
    exportedBlob = Return pb /\
    exportedContainer = Return pc /\
    (forall env name,
       pb env name =
       (so <- defaultGetBlobStorageClientOptions env name ;;
        fromConnectionString (VString (url so)))) /\
    (forall env name override co,
       defaultGetContainerClientOptions env name override = Return co ->
       pc env name override =
       (client <- pb env name ;;
        sdk_getContainerClient client (VString (container co)))) /\
    (forall env name override e,
       defaultGetContainerClientOptions env name override = Throw e ->
       pc env name override = Throw e).
Proof.
  do 2 eexists. split; [reflexivity|]. split; [reflexivity|]. split; [|split].
  - intros env name. simpl.
    destruct (defaultGetBlobStorageClientOptions env name); reflexivity.
  - intros env name override co H. simpl.
    rewrite (container_options_storage env name override co H), H.
    reflexivity.
  - intros env name override e H. simpl. rewrite H. reflexivity.
Qed.

(** X13.  Building a factory never throws, whatever is passed: a
    function, a record, any primitive or nothing at all yields a
    provider, and the TypeError of the guard is out of reach. *)
Theorem factory_construction_never_throws :
  (forall optionsOrFunc : BlobSource,
     exists p, createBlob optionsOrFunc = Return p)
  /\
  (forall optionsOrFunc : ContainerSource,
     exists p, createContainer optionsOrFunc = Return p).
Proof.
  split; intros src.
  - apply blob_factory_total.
  - apply container_factory_total.
Qed.

End ProviderFacts.

Lemma undeclared_name_fails_everywhere_witness :
  getAzureStorageConnectionNrFromEnvVar env_acme (js "unknown") =
    Throw (not_found_or_defined (js "unknown"))
  /\ defaultGetBlobStorageClientOptions env_acme (js "unknown") =
       Throw (not_found_or_defined (js "unknown"))
  /\ (forall override,
        defaultGetContainerClientOptions env_acme (js "unknown") override =
          Throw (not_found_or_defined (js "unknown")))
  /\ (exists p,
        getBlobServiceClient unit (fun _ => Return tt) = Return p /\
        p env_acme (js "unknown") =
          Throw (not_found_or_defined (js "unknown")))
  /\ (exists p,
        getContainerClient unit unit (fun _ => Return tt)
          (fun _ _ => Return tt) = Return p /\
        forall override,
          p env_acme (js "unknown") override =
            Throw (not_found_or_defined (js "unknown"))).
Proof.
  apply (undeclared_name_fails_everywhere unit unit (fun _ => Return tt)
           (fun _ _ => Return tt) env_acme (js "unknown")).
  intros k [<-|[<-|[<-|[]]]]; reflexivity.
Defined.
